(** * Widgets helper library: HTML fragment builders

    A shallow embedding of [openbb_terminal/jupyter/widget_helpers.py].
    Every Python function of the module becomes a computation in a small
    interpreter monad [Py] that threads the part of the outside world the
    module can touch (the files it opens and the text written to standard
    output) and that can raise the exceptions the module can raise.  Strings
    are byte strings; the double quote and the line feed, which the HTML
    literals of the module are full of, are named [dq] and [nl].

    [price_card], [html_report] and [row] hand a file to the Jinja2 template
    engine, which is no part of the module; they are embedded apart, in
    [widget_templates], over an engine that is a parameter.  Files are read
    in text mode: a path leads to nothing, to a directory, to a file that
    may not be read or does not decode, or to the characters of a file, whose
    line ends the read translates.  Standard output is taken to be writable,
    [str] of an [int] to be total and paths to be joined with a slash. *)

From Stdlib Require Import String Ascii List ZArith Bool Arith Lia.
From Stdlib Require Import DecimalString DecimalPos DecimalZ.
Import ListNotations.

Local Open Scope list_scope.
Local Open Scope string_scope.

(** ** Characters and strings *)

(** The double quote character, as a one-character string. *)
Definition dq : string := String "034"%char EmptyString.

(** The line feed, as a one-character string. *)
Definition nl : string := String "010"%char EmptyString.

(** The carriage return, as a one-character string. *)
Definition cr : string := String "013"%char EmptyString.

(** [str(n)] and [format(n, '')] of a Python [int]. *)
Definition str_int (n : Z) : string := NilZero.string_of_int (Z.to_int n).

(** [pat] is a prefix of [s] (Python's [s.startswith(pat)]). *)
Fixpoint starts_with (pat s : string) : bool :=
  match pat, s with
  | EmptyString, _ => true
  | String _ _, EmptyString => false
  | String a pat', String b s' => Ascii.eqb a b && starts_with pat' s'
  end.

(** Number of positions of [s] at which [pat] occurs. *)
Fixpoint occurrences (pat s : string) : nat :=
  match s with
  | EmptyString => if starts_with pat s then 1 else 0
  | String _ s' => (if starts_with pat s then 1 else 0) + occurrences pat s'
  end.

(** [pat in s] of Python. *)
Definition contains (pat s : string) : bool := Nat.ltb 0 (occurrences pat s).

(** What a read in text mode makes of the characters of a file: every
    carriage return, with the line feed that follows it if there is one,
    becomes one line feed (Python's universal newlines). *)
Fixpoint universal_newlines (s : string) : string :=
  match s with
  | EmptyString => EmptyString
  | String c s' =>
      if Ascii.eqb c "013" then
        String "010"
          match s' with
          | EmptyString => EmptyString
          | String d s'' =>
              if Ascii.eqb d "010" then universal_newlines s''
              else universal_newlines s'
          end
      else String c (universal_newlines s')
  end.

(** ** The interpreter monad *)

Module Py.

(** What a path of the disk leads to: a directory, a file that the process
    may not read, a file whose bytes are no text in the encoding of the
    locale, or a file with the characters its bytes decode to. *)
Inductive entry : Type :=
| Directory
| Unreadable
| Undecodable
| Text (chars : string).

(** What the module can see and change outside of its arguments: the
    directory of the module file ([__file__]), what the paths of the disk
    lead to (nothing, for a path that does not exist) and everything written
    so far to standard output. *)
Record world : Type := World {
  module_dir : string;
  files : string -> option entry;
  stdout : string
}.

(** The exceptions that the operations of the module can raise. *)
Inductive exn : Type :=
| FileNotFoundError (path : string)
| IndexError
| IsADirectoryError (path : string)
| PermissionError (path : string)
| UnicodeDecodeError.

(** The outcome of a call: an exception or a returned value. *)
Definition outcome (A : Type) : Type := (exn + A)%type.

Definition M (A : Type) : Type := world -> world * outcome A.

Definition ret {A} (a : A) : M A := fun w => (w, inr a).

Definition raise {A} (e : exn) : M A := fun w => (w, inl e).

Definition bind {A B} (m : M A) (k : A -> M B) : M B :=
  fun w =>
    match m w with
    | (w', inl e) => (w', inl e)
    | (w', inr a) => k a w'
    end.

(** [print(s)]: writes [s] and a line feed to standard output. *)
Definition print (s : string) : M unit :=
  fun w => (World (module_dir w) (files w) (stdout w ++ s ++ nl), inr tt).

(** [os.path.join(os.path.dirname(os.path.abspath(__file__)), a, b)]. *)
Definition module_path (a b : string) : M string :=
  fun w => (w, inr (module_dir w ++ "/" ++ a ++ "/" ++ b)).

(** [with open(path) as f: f.read()]: the file is opened for reading in
    text mode, which fails for a path that does not exist, for a directory
    and for a file that may not be read; reading it fails when its bytes do
    not decode, and gives its characters with the line ends translated
    otherwise. *)
Definition read_file (path : string) : M string :=
  fun w =>
    match files w path with
    | None => (w, inl (FileNotFoundError path))
    | Some Directory => (w, inl (IsADirectoryError path))
    | Some Unreadable => (w, inl (PermissionError path))
    | Some Undecodable => (w, inl UnicodeDecodeError)
    | Some (Text chars) => (w, inr (universal_newlines chars))
    end.

(** [l[i]] for a list [l] and an index [i >= 0]; out of range raises. *)
Definition getitem {A} (l : list A) (i : nat) : M A :=
  match nth_error l i with
  | Some a => ret a
  | None => raise IndexError
  end.

(** The value a call returns (or the exception it raises) in a world. *)
Definition result {A} (m : M A) (w : world) : outcome A := snd (m w).

(** The world a call leaves behind. *)
Definition after {A} (m : M A) (w : world) : world := fst (m w).

End Py.

Notation "'do' x <- m ;; k" := (Py.bind m (fun x => k))
  (at level 10, x name, m at level 100, k at level 200).
Notation "'run' m ;; k" := (Py.bind m (fun _ => k))
  (at level 10, m at level 100, k at level 200).

(** ** Numbers

    [kpi] compares its numeric arguments with [<] and [>] and prints them
    with [format]; it does nothing else with them.  The interface below is
    what it needs of a Python number type, with the two laws of [<] and [>]
    that [int] and [float] share. *)

Class Number (num : Type) : Type := {
  py_lt : num -> num -> bool;
  py_gt : num -> num -> bool;
  py_format : num -> string;
  py_lt_irrefl : forall x, py_lt x x = false;
  py_gt_lt : forall x y, py_gt x y = py_lt y x
}.

(** Python's [int]. *)
#[export] Instance int_number : Number Z := {
  py_lt := Z.ltb;
  py_gt := Z.gtb;
  py_format := str_int;
  py_lt_irrefl := Z.ltb_irrefl;
  py_gt_lt := Z.gtb_ltb
}.

(** ** The module *)

Module widget_helpers.

Import Py.

(** [price_card_stylesheet()] *)
Definition price_card_stylesheet : M string :=
  do path <- module_path "widgets" "style.css" ;;
  do style <- read_file path ;;
  ret style.

(** [html_report_stylesheet()] *)
Definition html_report_stylesheet : M string :=
  do path <- module_path "widgets" "report.css" ;;
  do style <- read_file path ;;
  ret style.

(** [h(level, text)] *)
Definition h (level : Z) (text : string) : M string :=
  ret ("<h" ++ str_int level ++ ">" ++ text ++ "</h" ++ str_int level ++ ">").

(** [p(text)] *)
Definition p (text : string) : M string :=
  ret ("<p>" ++ text ++ "</p>").

(** [kpi(thresholds, sentences, value)] *)
Definition kpi {num} `{Number num}
    (thresholds : list num) (sentences : list string) (value : num)
    : M string :=
  if (List.length thresholds =? 1)%nat && (List.length sentences =? 2)%nat
  then
    do t <- getitem thresholds 0 ;;
    if py_lt value t then
      do s0 <- getitem sentences 0 ;;
      do t0 <- getitem thresholds 0 ;;
      ret ("<p style=" ++ dq ++ "color:red" ++ dq ++ ">&#10060; " ++ s0
           ++ ". " ++ py_format value ++ " < " ++ py_format t0 ++ " </p>")
    else
      do s1 <- getitem sentences 1 ;;
      do t0 <- getitem thresholds 0 ;;
      ret ("<p style=" ++ dq ++ "color:green" ++ dq ++ ">&#x2705; " ++ s1
           ++ ". " ++ py_format value ++ " > " ++ py_format t0 ++ " </p>")
  else if (List.length thresholds =? 2)%nat
          && (List.length sentences =? 3)%nat
  then
    do t <- getitem thresholds 0 ;;
    if py_lt value t then
      do s0 <- getitem sentences 0 ;;
      do t0 <- getitem thresholds 0 ;;
      ret ("<p style=" ++ dq ++ "color:red" ++ dq ++ ">&#10060; " ++ s0
           ++ ". " ++ py_format value ++ " < " ++ py_format t0 ++ " </p>")
    else
      do t' <- getitem thresholds 1 ;;
      if py_gt value t' then
        do s2 <- getitem sentences 2 ;;
        do t1 <- getitem thresholds 1 ;;
        ret ("<p style=" ++ dq ++ "color:green" ++ dq ++ ">&#x2705; " ++ s2
             ++ ". " ++ py_format value ++ " > " ++ py_format t1 ++ " </p>")
      else
        do s1 <- getitem sentences 1 ;;
        do t0 <- getitem thresholds 0 ;;
        do t1 <- getitem thresholds 1 ;;
        ret ("<p style=" ++ dq ++ "color:orange" ++ dq ++ ">&#128993; "
             ++ s1 ++ ". " ++ py_format t0 ++ " < " ++ py_format value ++ " < "
             ++ py_format t1 ++ " </p>")
  else
    run print "Error. KPI condition is not correctly set" ;;
    ret EmptyString.

(** [add_tab(title, htmlcode)] *)
Definition add_tab (title htmlcode : string) : M string :=
  ret ("<div id=" ++ dq ++ title ++ dq ++ " class=" ++ dq ++ "tabcontent"
       ++ dq ++ "></br>" ++ nl
       ++ "        <p style=" ++ dq ++ "border:3px; border-style:solid;" ++ nl
       ++ "            border-color:#000000; padding: 1em; width: 1050px;"
       ++ dq ++ " contentEditable=" ++ dq ++ "true" ++ dq ++ ">" ++ nl
       ++ "                No comment." ++ nl
       ++ "        </p>" ++ htmlcode ++ nl
       ++ "    </div>").

(** [tab_clickable_evt()]: the lines of the script, joined by line feeds. *)
Definition tab_clickable_evt : M string :=
  ret (String.concat nl [
    EmptyString;
    "        <script>";
    "        function menu(evt, menu_name) {";
    "          var i, tabcontent, tablinks;";
    "          tabcontent = document.getElementsByClassName(" ++ dq ++ "tabcontent" ++ dq ++ ");";
    "          for (i = 0; i < tabcontent.length; i++) {";
    "            tabcontent[i].style.display = " ++ dq ++ "none" ++ dq ++ ";";
    "          }";
    "          tablinks = document.getElementsByClassName(" ++ dq ++ "tablinks" ++ dq ++ ");";
    "          for (i = 0; i < tablinks.length; i++) {";
    "            tablinks[i].className = tablinks[i].className.replace(" ++ dq ++ " active" ++ dq ++ ", " ++ dq ++ dq ++ ");";
    "            tablinks[i].style.backgroundColor = " ++ dq ++ "white" ++ dq ++ ";";
    "            tablinks[i].style.color = " ++ dq ++ "black" ++ dq ++ ";";
    "          }";
    "          document.getElementById(menu_name).style.display = " ++ dq ++ "block" ++ dq ++ ";";
    EmptyString;
    "          evt.currentTarget.className += " ++ dq ++ " active" ++ dq ++ ";";
    "          evt.currentTarget.style.backgroundColor = " ++ dq ++ "black" ++ dq ++ ";";
    "          evt.currentTarget.style.color = " ++ dq ++ "white" ++ dq ++ ";";
    "        }";
    EmptyString;
    "        window.onload=function(){";
    "            menu(event, 'SUMMARY');";
    "        };";
    "        </script>"
  ]).

(** [enumerate(l, start)]: the elements of [l] with their positions. *)
Fixpoint enumerate_from {A} (start : nat) (l : list A) : list (nat * A) :=
  match l with
  | [] => []
  | a :: l' => (start, a) :: enumerate_from (S start) l'
  end.

Definition enumerate {A} (l : list A) : list (nat * A) := enumerate_from 0 l.

(** One turn of the loop of [tablinks], on the text built so far. *)
Definition tablinks_step (htmlcode : string) (it : nat * string) : string :=
  let '(idx, tab) := it in
  let htmlcode :=
    htmlcode ++ "<button class=" ++ dq ++ "tablinks" ++ dq ++ " onclick="
    ++ dq ++ "menu(event, '" ++ tab ++ "')" ++ dq ++ ">" ++ tab
    ++ "</button>" in
  if (((idx + 1) mod 5) =? 0)%nat then htmlcode ++ "</br>" else htmlcode.

(** [tablinks(tabs)] *)
Definition tablinks (tabs : list string) : M string :=
  let htmlcode := "<div class=" ++ dq ++ "tab" ++ dq ++ ">" in
  let htmlcode := fold_left tablinks_step (enumerate tabs) htmlcode in
  let htmlcode := htmlcode ++ "</div>" in
  ret htmlcode.

(** [header(img, author, report_date, report_time, report_tz, title)] *)
Definition header (img author report_date report_time report_tz title : string)
    : M string :=
  ret (nl
       ++ "        <div style=" ++ dq ++ "display:flex; margin-bottom:1cm;"
       ++ dq ++ ">" ++ nl
       ++ "            " ++ img ++ nl
       ++ "            <div style=" ++ dq ++ "margin-left:2em" ++ dq ++ ">" ++ nl
       ++ "                <p><b>Analyst:</b> " ++ author ++ "</p>" ++ nl
       ++ "                <p><b>Date   :</b> " ++ report_date ++ "</p>" ++ nl
       ++ "                <p><b>Time   :</b> " ++ report_time ++ " "
       ++ report_tz ++ "</p>" ++ nl
       ++ "                <br/>" ++ nl
       ++ "                <p>" ++ title ++ "</p>" ++ nl
       ++ "            </div>" ++ nl
       ++ "        </div>").

End widget_helpers.

Import widget_helpers.

(** ** The shapes the specification names

    The definitions of this part follow the words of the specification, to be
    compared with what the functions of the module compute. *)

(** A paragraph in [color], led by [icon], carrying [sentence] and the
    displayed [comparison]: the shape of every KPI message. *)
Definition kpi_paragraph (color icon sentence comparison : string) : string :=
  "<p style=" ++ dq ++ "color:" ++ color ++ dq ++ ">" ++ icon ++ " "
  ++ sentence ++ ". " ++ comparison ++ " </p>".

Definition red_failure : string -> string -> string :=
  kpi_paragraph "red" "&#10060;".

Definition green_success : string -> string -> string :=
  kpi_paragraph "green" "&#x2705;".

Definition orange_middle : string -> string -> string :=
  kpi_paragraph "orange" "&#128993;".

(** The diagnostic of the unsupported shapes, as it reaches standard output. *)
Definition kpi_diagnostic : string :=
  "Error. KPI condition is not correctly set" ++ nl.

(** The world after [text] has been written to standard output. *)
Definition written (text : string) (w : Py.world) : Py.world :=
  Py.World (Py.module_dir w) (Py.files w) (Py.stdout w ++ text).

(** A world with no file and nothing printed yet. *)
Definition blank_world : Py.world :=
  Py.World "/opt/openbb_terminal/jupyter" (fun _ => None) EmptyString.

(** The text of several fragments, one after the other. *)
Fixpoint join (l : list string) : string :=
  match l with
  | [] => EmptyString
  | x :: l' => x ++ join l'
  end.

(** The button of one tab: clicking it calls [menu] with the title as the id
    of the target. *)
Definition tab_button (title : string) : string :=
  "<button class=" ++ dq ++ "tablinks" ++ dq ++ " onclick=" ++ dq
  ++ "menu(event, '" ++ title ++ "')" ++ dq ++ ">" ++ title ++ "</button>".

(** The line-break marker. *)
Definition line_break : string := "</br>".

(** The button at (0-based) position [idx], followed by a line break when
    [idx] is one of 4, 9, 14, ... *)
Definition tab_item (it : nat * string) : string :=
  tab_button (snd it)
  ++ (if (fst it mod 5 =? 4)%nat then line_break else EmptyString).

(** How a button element starts. *)
Definition button_tag : string := "<button".

(** A title in which the text [pat] occurs nowhere. *)
Definition lacks (pat title : string) : bool :=
  (occurrences pat title =? 0)%nat.

(** The line breaks among the items of a tab bar. *)
Definition breaks_emitted (items : list (nat * string)) : nat :=
  List.length (filter (fun it => (fst it mod 5 =? 4)%nat) items).

(** The container of the tab bar. *)
Definition tab_bar (inner : string) : string :=
  "<div class=" ++ dq ++ "tab" ++ dq ++ ">" ++ inner ++ "</div>".

(** The opening tag of a tab container with the given id. *)
Definition tab_open (id : string) : string :=
  "<div id=" ++ dq ++ id ++ dq ++ " class=" ++ dq ++ "tabcontent" ++ dq ++ ">".

(** The fixed, editable comment block that opens every tab. *)
Definition comment_placeholder : string :=
  "</br>" ++ nl
  ++ "        <p style=" ++ dq ++ "border:3px; border-style:solid;" ++ nl
  ++ "            border-color:#000000; padding: 1em; width: 1050px;" ++ dq
  ++ " contentEditable=" ++ dq ++ "true" ++ dq ++ ">" ++ nl
  ++ "                No comment." ++ nl
  ++ "        </p>".

(** The end of a tab container. *)
Definition tab_close : string := nl ++ "    </div>".

(** ** The functions that render a template

    Making a [Template] of a text and rendering it with named values is the
    work of the Jinja2 engine;
    here it is a parameter, a function of the text of the template and of the
    bindings that gives the rendered text or an error of the engine.  The
    outcome of these functions has two layers: the exception of the file
    access outside, the error of the engine inside. *)

Module widget_templates.

Import Py.

(** What the module binds to the names of a template. *)
Inductive jinja_value : Type :=
| JStr (s : string)
| JList (l : list string).

(** An argument left out takes its default. *)
Definition or_default (default : string) (arg : option string) : string :=
  match arg with
  | Some a => a
  | None => default
  end.

Section Engine.

Variable jinja_error : Type.
Variable render :
  string -> list (string * jinja_value) -> jinja_error + string.

(** [price_card(ticker, price, price_color="neutral_color")] *)
Definition price_card (ticker price : string) (price_color : option string)
    : M (jinja_error + string) :=
  let price_color := or_default "neutral_color" price_color in
  do path <- module_path "widgets" "card.j2" ;;
  do template <- read_file path ;;
  let card :=
    render template [("ticker", JStr ticker); ("price", JStr price);
                     ("price_color", JStr price_color)] in
  ret card.

(** [html_report(title="", stylesheet="", body="")] *)
Definition html_report (title stylesheet body : option string)
    : M (jinja_error + string) :=
  let title := or_default EmptyString title in
  let stylesheet := or_default EmptyString stylesheet in
  let body := or_default EmptyString body in
  do path <- module_path "widgets" "report.j2" ;;
  do template <- read_file path ;;
  ret (render template [("title", JStr title);
                        ("stylesheet", JStr stylesheet);
                        ("body", JStr body)]).

(** [row(elements)] *)
Definition row (elements : list string) : M (jinja_error + string) :=
  do path <- module_path "widgets" "row.j2" ;;
  do template <- read_file path ;;
  ret (render template [("elements", JList elements)]).

End Engine.

End widget_templates.

(** ** Reading the fragments back *)

(** [kpi] knows two shapes: one threshold with two sentences, two thresholds
    with three. *)
Definition supported_shape (thresholds sentences : nat) : bool :=
  ((thresholds =? 1)%nat && (sentences =? 2)%nat)
  || ((thresholds =? 2)%nat && (sentences =? 3)%nat).

(** The integer a decimal text stands for. *)
Definition parse_int (s : string) : option Z :=
  option_map Z.of_int (NilZero.int_of_string s).

(** The text before the first [c] of [s]; all of [s] when it has none. *)
Fixpoint before (c : ascii) (s : string) : string :=
  match s with
  | EmptyString => EmptyString
  | String a s' => if Ascii.eqb a c then EmptyString else String a (before c s')
  end.

(** The text after the first [c] of [s]; nothing when it has none. *)
Fixpoint behind (c : ascii) (s : string) : string :=
  match s with
  | EmptyString => EmptyString
  | String a s' => if Ascii.eqb a c then s' else behind c s'
  end.

(** [s] without its first [n] characters. *)
Fixpoint skip (n : nat) (s : string) : string :=
  match n, s with
  | O, _ => s
  | S _, EmptyString => EmptyString
  | S n', String _ s' => skip n' s'
  end.

(** The level written in the opening tag of a heading. *)
Definition heading_level (html : string) : option Z :=
  parse_int (before ">" (skip 2 html)).

(** The value of the [id] attribute that opens a tab container. *)
Definition tab_id (html : string) : string :=
  before "034" (skip 9 html).

(** What [add_tab] puts between the title and the HTML of a tab. *)
Definition tab_seam : string :=
  dq ++ " class=" ++ dq ++ "tabcontent" ++ dq ++ ">" ++ comment_placeholder.

(** The start of the call that a click on a button makes, up to the quote
    that opens the name of the target. *)
Definition menu_call : string := "menu(event, ".

(** The targets of the calls of [menu] in a text, from left to right. *)
Fixpoint targets (s : string) : list string :=
  match s with
  | EmptyString => []
  | String _ s' =>
      if starts_with (menu_call ++ "'") s
      then before "'" (skip 13 s) :: targets s'
      else targets s'
  end.

(** The class that the tag of a tab container gives after its id. *)
Definition tab_class (html : string) : string :=
  before "034" (skip (9 + String.length (tab_id html) + 9) html).

(** How the attribute starts that wires a button: the name of the attribute,
    the double quote that opens its value, the call of [menu] and the
    apostrophe that opens the name of the target. *)
Definition click_call : string := "onclick=" ++ dq ++ "menu(event, '".

(** The calls that the [onclick] attributes of a text make, from left to
    right.  The name of the target runs up to the next apostrophe.  The call
    is well formed, and has that name as its target, when the name holds no
    double quote (which would end the attribute) and is followed by the
    apostrophe, the parenthesis and the double quote that close the name, the
    call and the attribute; otherwise the attribute is no call of [menu] with
    a target.  Reading goes on behind the apostrophe that ends the name;
    [wait] is the number of characters still to pass over. *)
Fixpoint clicks_from (wait : nat) (s : string) : list (option string) :=
  match s with
  | EmptyString => []
  | String _ s' =>
      match wait with
      | S wait' => clicks_from wait' s'
      | O =>
          if starts_with click_call s then
            let target := before "'" (skip 22 s) in
            (if starts_with ("')" ++ dq) (skip (22 + String.length target) s)
                && lacks dq target
             then Some target else None)
            :: clicks_from (22 + String.length target) s'
          else clicks_from 0 s'
      end
  end.

Definition click_targets (html : string) : list (option string) :=
  clicks_from 0 html.

(** ** Strings: concatenation and occurrences *)

Lemma append_assoc (a b c : string) : (a ++ b) ++ c = a ++ (b ++ c).
Proof.
  induction a as [|x a IH]; simpl; [reflexivity | now rewrite IH].
Qed.

Lemma append_empty_r (a : string) : a ++ EmptyString = a.
Proof.
  induction a as [|x a IH]; simpl; [reflexivity | now rewrite IH].
Qed.

Lemma join_app (l1 l2 : list string) : join (l1 ++ l2)%list = join l1 ++ join l2.
Proof.
  induction l1 as [|x l1 IH]; simpl; [reflexivity|].
  now rewrite IH, append_assoc.
Qed.

(** Both sides are concatenations of the same pieces, bracketed differently. *)
Ltac same_text :=
  unfold red_failure, green_success, orange_middle, kpi_paragraph,
    tab_bar, tab_open, comment_placeholder, tab_close, tab_button, line_break;
  simpl; repeat (rewrite !append_assoc; simpl); reflexivity.

(** ** [kpi]: the three shapes *)

Section Kpi.

Context {num : Type} `{Number num}.

(** One threshold and two sentences: what the code returns, by cases. *)
Lemma kpi_one_threshold (t0 v : num) (s0 s1 : string) (w : Py.world) :
  kpi [t0] [s0; s1] v w
  = (w, inr (if py_lt v t0
             then red_failure s0 (py_format v ++ " < " ++ py_format t0)
             else green_success s1 (py_format v ++ " > " ++ py_format t0))).
Proof.
  unfold kpi, Py.bind, Py.getitem, Py.ret; simpl.
  destruct (py_lt v t0); do 2 f_equal; same_text.
Qed.

(** Two thresholds and three sentences: what the code returns, by cases. *)
Lemma kpi_two_thresholds (t0 t1 v : num) (s0 s1 s2 : string) (w : Py.world) :
  kpi [t0; t1] [s0; s1; s2] v w
  = (w, inr (if py_lt v t0
             then red_failure s0 (py_format v ++ " < " ++ py_format t0)
             else if py_gt v t1
             then green_success s2 (py_format v ++ " > " ++ py_format t1)
             else orange_middle s1 (py_format t0 ++ " < " ++ py_format v
                                    ++ " < " ++ py_format t1))).
Proof.
  unfold kpi, Py.bind, Py.getitem, Py.ret; simpl.
  destruct (py_lt v t0); [do 2 f_equal; same_text|].
  destruct (py_gt v t1); do 2 f_equal; same_text.
Qed.

(** Every other pair of lengths: the diagnostic is printed and the empty
    string returned. *)
Lemma kpi_other_shapes (thresholds : list num) (sentences : list string)
    (v : num) (w : Py.world) :
  (List.length thresholds, List.length sentences) <> (1, 2) ->
  (List.length thresholds, List.length sentences) <> (2, 3) ->
  kpi thresholds sentences v w = (written kpi_diagnostic w, inr EmptyString).
Proof.
  intros H12 H23. unfold kpi.
  destruct (Nat.eqb_spec (List.length thresholds) 1) as [E1|N1];
    destruct (Nat.eqb_spec (List.length sentences) 2) as [E2|N2];
    simpl; try (exfalso; apply H12; congruence);
    destruct (Nat.eqb_spec (List.length thresholds) 2) as [E3|N3];
    destruct (Nat.eqb_spec (List.length sentences) 3) as [E4|N4];
    simpl; try (exfalso; apply H23; congruence); reflexivity.
Qed.

(** [kpi] raises on no input at all: the two indexed shapes have checked
    the lengths before they index. *)
Lemma kpi_never_raises (thresholds : list num) (sentences : list string)
    (v : num) (w : Py.world) :
  exists html, Py.result (kpi thresholds sentences v) w = inr html.
Proof.
  unfold Py.result.
  destruct thresholds as [|t0 [|t1 [|t2 ts]]];
    destruct sentences as [|s0 [|s1 [|s2 [|s3 ss]]]];
    try (rewrite kpi_other_shapes by (simpl; congruence);
         eexists; reflexivity).
  - rewrite kpi_one_threshold. eexists; reflexivity.
  - rewrite kpi_two_thresholds. eexists; reflexivity.
Qed.

End Kpi.

(** C1: with two thresholds [t0; t1] and three sentences [s0; s1; s2], [kpi]
    returns the red paragraph with sentence [s0] when [v < t0], else the
    green paragraph with sentence [s2] when [v > t1], and otherwise the orange
    paragraph with sentence [s1]; [kpi([5,10],["a","b","c"],7)] is the orange
    message with "b". *)
Theorem kpi_three_bands :
  (forall (num : Type) (N : Number num) (t0 t1 v : num) (s0 s1 s2 : string)
          (w : Py.world),
      kpi [t0; t1] [s0; s1; s2] v w
      = (w, inr (if py_lt v t0
                 then red_failure s0 (py_format v ++ " < " ++ py_format t0)
                 else if py_gt v t1
                 then green_success s2 (py_format v ++ " > " ++ py_format t1)
                 else orange_middle s1 (py_format t0 ++ " < " ++ py_format v
                                        ++ " < " ++ py_format t1))))
  /\ (forall w : Py.world,
         kpi [5; 10]%Z ["a"; "b"; "c"] 7%Z w
         = (w, inr ("<p style=" ++ dq ++ "color:orange" ++ dq
                    ++ ">&#128993; b. 5 < 7 < 10 </p>"))).
Proof.
  split.
  - intros. apply kpi_two_thresholds.
  - intros w. rewrite kpi_two_thresholds. reflexivity.
Qed.

(** C3: with one threshold [t0] and two sentences [s0; s1], [kpi] returns the
    red failure paragraph with [s0], showing "v < t0", when [v < t0], and
    otherwise the green success paragraph with [s1], showing "v > t0". *)
Theorem kpi_two_bands :
  (forall (num : Type) (N : Number num) (t0 v : num) (s0 s1 : string)
          (w : Py.world),
      kpi [t0] [s0; s1] v w
      = (w, inr (if py_lt v t0
                 then red_failure s0 (py_format v ++ " < " ++ py_format t0)
                 else green_success s1 (py_format v ++ " > " ++ py_format t0))))
  /\ (forall w : Py.world,
         kpi [10]%Z ["low"; "high"] 5%Z w
         = (w, inr ("<p style=" ++ dq ++ "color:red" ++ dq
                    ++ ">&#10060; low. 5 < 10 </p>")))
  /\ (forall w : Py.world,
         kpi [10]%Z ["low"; "high"] 15%Z w
         = (w, inr ("<p style=" ++ dq ++ "color:green" ++ dq
                    ++ ">&#x2705; high. 15 > 10 </p>"))).
Proof.
  split; [|split].
  - intros. apply kpi_one_threshold.
  - intros w. rewrite kpi_one_threshold. reflexivity.
  - intros w. rewrite kpi_one_threshold. reflexivity.
Qed.

(** C4: for every pair of lengths other than (1, 2) and (2, 3), and every
    value, [kpi] prints the diagnostic, raises nothing and returns the empty
    string; so does [kpi([1,2],["a"],v)] for every [v]. *)
Theorem kpi_unsupported_lengths :
  (forall (num : Type) (N : Number num) (thresholds : list num)
          (sentences : list string) (v : num) (w : Py.world),
      (List.length thresholds, List.length sentences) <> (1, 2) ->
      (List.length thresholds, List.length sentences) <> (2, 3) ->
      kpi thresholds sentences v w
      = (written kpi_diagnostic w, inr EmptyString))
  /\ (forall (v : Z) (w : Py.world),
         kpi [1; 2]%Z ["a"] v w = (written kpi_diagnostic w, inr EmptyString)).
Proof.
  split.
  - intros. now apply kpi_other_shapes.
  - intros v w. apply kpi_other_shapes; discriminate.
Qed.

Lemma kpi_unsupported_lengths_witness :
  (List.length [1; 2; 3]%Z, List.length ["a"; "b"]) <> (1, 2)
  /\ (List.length [1; 2; 3]%Z, List.length ["a"; "b"]) <> (2, 3)
  /\ kpi [1; 2; 3]%Z ["a"; "b"] 7%Z blank_world
     = (written kpi_diagnostic blank_world, inr EmptyString).
Proof.
  split; [discriminate|]. split; [discriminate|].
  apply (proj1 kpi_unsupported_lengths); discriminate.
Defined.

(** C2, as stated, fails: with the thresholds [10; 5] the value 10, equal to
    the first threshold, takes the green branch, not the orange one. *)
Lemma kpi_first_boundary_green :
  kpi [10; 5]%Z ["a"; "b"; "c"] 10%Z blank_world
  = (blank_world, inr (green_success "c" "10 > 5"))
  /\ green_success "c" "10 > 5" <> orange_middle "b" "10 < 10 < 5".
Proof.
  split; [rewrite kpi_two_thresholds; reflexivity | discriminate].
Qed.

(** C2, amended: the comparisons are strict.  A value equal to the single
    threshold takes the green branch; with two thresholds a value equal to the
    first never takes the red branch and a value equal to the second never
    takes the green branch, and both take the orange branch when
    [thresholds[1] < thresholds[0]] is false. *)
Theorem kpi_boundary_strict :
  (forall (num : Type) (N : Number num) (t0 : num) (s0 s1 : string)
          (w : Py.world),
      kpi [t0] [s0; s1] t0 w
      = (w, inr (green_success s1 (py_format t0 ++ " > " ++ py_format t0))))
  /\ (forall (num : Type) (N : Number num) (t0 t1 : num) (s0 s1 s2 : string)
             (w : Py.world),
         kpi [t0; t1] [s0; s1; s2] t0 w
         = (w, inr (if py_gt t0 t1
                    then green_success s2 (py_format t0 ++ " > " ++ py_format t1)
                    else orange_middle s1 (py_format t0 ++ " < " ++ py_format t0
                                           ++ " < " ++ py_format t1)))
         /\ kpi [t0; t1] [s0; s1; s2] t1 w
            = (w, inr (if py_lt t1 t0
                       then red_failure s0 (py_format t1 ++ " < " ++ py_format t0)
                       else orange_middle s1 (py_format t0 ++ " < " ++ py_format t1
                                              ++ " < " ++ py_format t1))))
  /\ (forall (num : Type) (N : Number num) (t0 t1 : num) (s0 s1 s2 : string)
             (w : Py.world),
         py_lt t1 t0 = false ->
         kpi [t0; t1] [s0; s1; s2] t0 w
         = (w, inr (orange_middle s1 (py_format t0 ++ " < " ++ py_format t0
                                      ++ " < " ++ py_format t1)))
         /\ kpi [t0; t1] [s0; s1; s2] t1 w
            = (w, inr (orange_middle s1 (py_format t0 ++ " < " ++ py_format t1
                                         ++ " < " ++ py_format t1))))
  /\ (forall w : Py.world,
         kpi [10]%Z ["low"; "high"] 10%Z w
         = (w, inr ("<p style=" ++ dq ++ "color:green" ++ dq
                    ++ ">&#x2705; high. 10 > 10 </p>"))).
Proof.
  split; [|split; [|split]].
  - intros. rewrite kpi_one_threshold, py_lt_irrefl. reflexivity.
  - intros. rewrite !kpi_two_thresholds, py_lt_irrefl.
    rewrite (py_gt_lt t1 t1), py_lt_irrefl. split; reflexivity.
  - intros num N t0 t1 s0 s1 s2 w Hord.
    rewrite !kpi_two_thresholds, py_lt_irrefl, Hord.
    rewrite (py_gt_lt t0 t1), Hord, (py_gt_lt t1 t1), py_lt_irrefl.
    split; reflexivity.
  - intros w. rewrite kpi_one_threshold. reflexivity.
Qed.

Lemma kpi_boundary_strict_witness :
  py_lt 10%Z 5%Z = false
  /\ kpi [5; 10]%Z ["a"; "b"; "c"] 10%Z blank_world
     = (blank_world, inr (orange_middle "b" "5 < 10 < 10")).
Proof.
  split; [reflexivity|].
  apply (proj1 (proj2 (proj2 kpi_boundary_strict)) Z int_number 5%Z 10%Z).
  reflexivity.
Defined.

(** C10, as stated, fails: with the thresholds [10; 5] the value 5, equal to
    the second threshold, takes the red branch, and no strict chain is
    displayed. *)
Lemma kpi_second_boundary_red :
  kpi [10; 5]%Z ["a"; "b"; "c"] 5%Z blank_world
  = (blank_world, inr (red_failure "a" "5 < 10"))
  /\ red_failure "a" "5 < 10" <> orange_middle "b" "10 < 5 < 5"
  /\ contains "10 < 5 < 5" (red_failure "a" "5 < 10") = false.
Proof.
  split; [rewrite kpi_two_thresholds; reflexivity|].
  split; [discriminate | reflexivity].
Qed.

(** C10, amended: with two thresholds such that [thresholds[1] <
    thresholds[0]] is false, a value equal to one of them gets the orange
    message, whose text displays the chain "t0 < value < t1" although that
    strict chain does not hold; [kpi([5,10],["a","b","c"],5)] contains
    "5 < 5 < 10". *)
Theorem kpi_boundary_text :
  (forall (num : Type) (N : Number num) (t0 t1 v : num) (s0 s1 s2 : string)
          (w : Py.world),
      py_lt t1 t0 = false ->
      v = t0 \/ v = t1 ->
      kpi [t0; t1] [s0; s1; s2] v w
      = (w, inr (orange_middle s1 (py_format t0 ++ " < " ++ py_format v
                                   ++ " < " ++ py_format t1)))
      /\ py_lt t0 v && py_lt v t1 = false)
  /\ (forall w : Py.world,
         exists html : string,
           kpi [5; 10]%Z ["a"; "b"; "c"] 5%Z w = (w, inr html)
           /\ contains "5 < 5 < 10" html = true).
Proof.
  split.
  - intros num N t0 t1 v s0 s1 s2 w Hord [-> | ->];
      rewrite kpi_two_thresholds, py_lt_irrefl.
    + rewrite (py_gt_lt t0 t1), Hord. split; reflexivity.
    + rewrite Hord, (py_gt_lt t1 t1), py_lt_irrefl.
      split; [reflexivity | apply andb_false_r].
  - intros w. eexists. rewrite kpi_two_thresholds. split; reflexivity.
Qed.

Lemma kpi_boundary_text_witness :
  py_lt 10%Z 5%Z = false
  /\ (5%Z = 5%Z \/ 5%Z = 10%Z)
  /\ kpi [5; 10]%Z ["a"; "b"; "c"] 5%Z blank_world
     = (blank_world, inr (orange_middle "b" "5 < 5 < 10")).
Proof.
  split; [reflexivity|]. split; [left; reflexivity|].
  apply (proj1 kpi_boundary_text Z int_number 5%Z 10%Z 5%Z "a" "b" "c"
           blank_world eq_refl (or_introl eq_refl)).
Defined.

(** ** [h], [p] and [add_tab]: the text they build *)

(** C6: [h(level, text)] is the text between the opening and the closing tag
    of the heading of that level, whatever the level; [h(3, "x")] is
    "<h3>x</h3>". *)
Theorem h_wraps_text :
  (forall (level : Z) (text : string) (w : Py.world),
      h level text w
      = (w, inr ("<h" ++ str_int level ++ ">" ++ text
                 ++ "</h" ++ str_int level ++ ">")))
  /\ (forall w : Py.world, h 3 "x" w = (w, inr "<h3>x</h3>"))
  /\ (forall w : Py.world, h 7 "x" w = (w, inr "<h7>x</h7>"))
  /\ (forall w : Py.world, h 0 "x" w = (w, inr "<h0>x</h0>"))
  /\ (forall w : Py.world, h (-2) "x" w = (w, inr "<h-2>x</h-2>")).
Proof.
  repeat split.
Qed.

(** [p(text)] is the text between the tags of a paragraph. *)
Lemma p_wraps_text (text : string) (w : Py.world) :
  p text w = (w, inr ("<p>" ++ text ++ "</p>"))
  /\ p "x" w = (w, inr "<p>x</p>").
Proof.
  split; reflexivity.
Qed.

(** The text of a tab: the opening tag with the title as id, the comment
    block, the HTML and the closing tag. *)
Lemma add_tab_text (title htmlcode : string) (w : Py.world) :
  add_tab title htmlcode w
  = (w, inr (tab_open title ++ comment_placeholder ++ htmlcode ++ tab_close)).
Proof.
  unfold add_tab, Py.ret. do 2 f_equal. same_text.
Qed.

(** ** [tablinks]: the loop and what it builds *)

Lemma fifth_button (idx : nat) :
  ((idx + 1) mod 5 =? 0)%nat = (idx mod 5 =? 4)%nat.
Proof.
  pose proof (Nat.div_mod_eq idx 5) as E.
  pose proof (Nat.div_mod_eq (idx + 1) 5) as E'.
  pose proof (Nat.mod_upper_bound idx 5) as B.
  pose proof (Nat.mod_upper_bound (idx + 1) 5) as B'.
  destruct (Nat.eqb_spec ((idx + 1) mod 5) 0), (Nat.eqb_spec (idx mod 5) 4);
    try reflexivity; exfalso; lia.
Qed.

Lemma tablinks_step_appends (htmlcode : string) (it : nat * string) :
  tablinks_step htmlcode it = htmlcode ++ tab_item it.
Proof.
  destruct it as [idx tab]. unfold tablinks_step, tab_item. simpl fst; simpl snd.
  rewrite fifth_button.
  destruct (idx mod 5 =? 4)%nat; same_text.
Qed.

Lemma tablinks_loop (items : list (nat * string)) (htmlcode : string) :
  fold_left tablinks_step items htmlcode
  = htmlcode ++ join (map tab_item items).
Proof.
  revert htmlcode; induction items as [|it items IH]; intros htmlcode; simpl.
  - now rewrite append_empty_r.
  - now rewrite IH, tablinks_step_appends, append_assoc.
Qed.

Lemma tablinks_builds (tabs : list string) (w : Py.world) :
  tablinks tabs w = (w, inr (tab_bar (join (map tab_item (enumerate tabs))))).
Proof.
  unfold tablinks, Py.ret. rewrite tablinks_loop. reflexivity.
Qed.

Lemma enumerate_from_snd {A} (l : list A) (k : nat) :
  map snd (enumerate_from k l) = l.
Proof.
  revert k; induction l as [|a l IH]; intros k; simpl; [|rewrite IH];
    reflexivity.
Qed.

Lemma enumerate_from_fst {A} (l : list A) (k : nat) :
  map fst (enumerate_from k l) = seq k (List.length l).
Proof.
  revert k; induction l as [|a l IH]; intros k; simpl; [|rewrite IH];
    reflexivity.
Qed.

(** ** Counting markers in the tab bar *)

(** A pattern found at the head of [t ++ c :: rest] lies within [t] when [c]
    is not one of its characters. *)
Lemma starts_with_cut (q t rest : string) (c : ascii) :
  ~ In c (list_ascii_of_string q) ->
  starts_with q (t ++ String c rest) = true ->
  starts_with q t = true.
Proof.
  revert t; induction q as [|y q IH]; intros t Hc Hs; [reflexivity|].
  destruct t as [|b t]; simpl in Hs |- *;
    apply andb_true_iff in Hs as [Hy Hs].
  - apply Ascii.eqb_eq in Hy. subst y. exfalso. apply Hc. now left.
  - rewrite Hy. simpl. apply IH; [|exact Hs].
    intros Hin. apply Hc. now right.
Qed.

(** A title without the pattern adds no occurrence in front of a text whose
    first character occurs nowhere in the pattern after its first one. *)
Lemma occurrences_skip (x : ascii) (q t rest : string) (c : ascii) :
  ~ In c (list_ascii_of_string q) ->
  occurrences (String x q) t = 0 ->
  occurrences (String x q) (t ++ String c rest)
  = occurrences (String x q) (String c rest).
Proof.
  intros Hc. induction t as [|a t IH]; intros Ht; [reflexivity|].
  change (occurrences (String x q) (String a t ++ String c rest))
    with ((if starts_with (String x q) (String a (t ++ String c rest))
           then 1 else 0)
          + occurrences (String x q) (t ++ String c rest)).
  change (occurrences (String x q) (String a t))
    with ((if starts_with (String x q) (String a t) then 1 else 0)
          + occurrences (String x q) t) in Ht.
  destruct (starts_with (String x q) (String a t)) eqn:Hhere;
    [discriminate Ht|].
  simpl in Ht. rewrite (IH Ht).
  destruct (starts_with (String x q) (String a (t ++ String c rest)))
    eqn:Hthere; [|reflexivity].
  exfalso. simpl in Hhere, Hthere.
  apply andb_true_iff in Hthere as [Hx Hq].
  rewrite Hx, (starts_with_cut q t rest c Hc Hq) in Hhere. discriminate Hhere.
Qed.

Lemma lacks_spec (pat title : string) :
  lacks pat title = true -> occurrences pat title = 0.
Proof.
  unfold lacks. apply Nat.eqb_eq.
Qed.

(** The characters that follow a title in a button are no part of the
    markers, their first character apart. *)
Ltac not_in_marker := simpl; intuition discriminate.

(** One item adds one line break when a break follows its button, and none
    otherwise. *)
Lemma line_breaks_of_item (idx : nat) (title rest : string) :
  occurrences line_break title = 0 ->
  occurrences line_break (tab_item (idx, title) ++ rest)
  = (if (idx mod 5 =? 4)%nat then 1 else 0) + occurrences line_break rest.
Proof.
  intros Ht. unfold tab_item, tab_button, line_break in *. simpl fst; simpl snd.
  destruct (idx mod 5 =? 4)%nat;
    repeat (rewrite !append_assoc; simpl);
    (rewrite occurrences_skip; [simpl | not_in_marker | exact Ht]);
    (rewrite occurrences_skip; [simpl | not_in_marker | exact Ht]);
    reflexivity.
Qed.

(** One item adds one button. *)
Lemma buttons_of_item (idx : nat) (title rest : string) :
  occurrences button_tag title = 0 ->
  occurrences button_tag (tab_item (idx, title) ++ rest)
  = 1 + occurrences button_tag rest.
Proof.
  intros Ht. unfold tab_item, tab_button, line_break, button_tag in *.
  simpl fst; simpl snd.
  destruct (idx mod 5 =? 4)%nat;
    repeat (rewrite !append_assoc; simpl);
    (rewrite occurrences_skip; [simpl | not_in_marker | exact Ht]);
    (rewrite occurrences_skip; [simpl | not_in_marker | exact Ht]);
    reflexivity.
Qed.

Lemma breaks_emitted_cons (it : nat * string) (items : list (nat * string)) :
  breaks_emitted (it :: items)
  = (if (fst it mod 5 =? 4)%nat then 1 else 0) + breaks_emitted items.
Proof.
  unfold breaks_emitted. cbn [filter].
  destruct (fst it mod 5 =? 4)%nat; reflexivity.
Qed.

Lemma breaks_emitted_positions (items : list (nat * string)) :
  breaks_emitted items
  = List.length (filter (fun i => (i mod 5 =? 4)%nat) (map fst items)).
Proof.
  induction items as [|it items IH]; [reflexivity|].
  rewrite breaks_emitted_cons, IH. cbn [map filter].
  destruct (fst it mod 5 =? 4)%nat; reflexivity.
Qed.

(** Among the positions 0, ..., n - 1, the fifth ones are [n / 5] many. *)
Lemma fifth_positions (n : nat) :
  List.length (filter (fun i => (i mod 5 =? 4)%nat) (seq 0 n)) = n / 5.
Proof.
  induction n as [|n IH]; [reflexivity|].
  rewrite seq_S, filter_app, length_app, IH. cbn [filter Nat.add].
  pose proof (Nat.div_mod_eq n 5) as E.
  pose proof (Nat.div_mod_eq (S n) 5) as E'.
  pose proof (Nat.mod_upper_bound n 5) as B.
  pose proof (Nat.mod_upper_bound (S n) 5) as B'.
  destruct (Nat.eqb_spec (n mod 5) 4); cbn [List.length]; lia.
Qed.

Lemma breaks_emitted_enumerate (tabs : list string) :
  breaks_emitted (enumerate tabs) = List.length tabs / 5.
Proof.
  unfold enumerate.
  now rewrite breaks_emitted_positions, enumerate_from_fst, fifth_positions.
Qed.

Lemma enumerate_length {A} (l : list A) :
  List.length (enumerate l) = List.length l.
Proof.
  unfold enumerate.
  now rewrite <- (length_map snd), enumerate_from_snd.
Qed.

Lemma line_breaks_of_items (tabs : list string) (k : nat) (rest : string) :
  forallb (lacks line_break) tabs = true ->
  occurrences line_break (join (map tab_item (enumerate_from k tabs)) ++ rest)
  = breaks_emitted (enumerate_from k tabs) + occurrences line_break rest.
Proof.
  revert k; induction tabs as [|title tabs IH]; intros k Hp; [reflexivity|].
  cbn [forallb] in Hp. apply andb_true_iff in Hp as [Ht Hp].
  apply lacks_spec in Ht.
  cbn [enumerate_from map join].
  rewrite append_assoc, line_breaks_of_item, IH, breaks_emitted_cons by auto.
  cbn [fst]. lia.
Qed.

Lemma buttons_of_items (tabs : list string) (k : nat) (rest : string) :
  forallb (lacks button_tag) tabs = true ->
  occurrences button_tag (join (map tab_item (enumerate_from k tabs)) ++ rest)
  = List.length tabs + occurrences button_tag rest.
Proof.
  revert k; induction tabs as [|title tabs IH]; intros k Hp; [reflexivity|].
  cbn [forallb] in Hp. apply andb_true_iff in Hp as [Ht Hp].
  apply lacks_spec in Ht.
  cbn [enumerate_from map join List.length].
  rewrite append_assoc, buttons_of_item, IH by auto. lia.
Qed.




(** ** [kpi]: what a caller can rely on *)

Lemma append_length (a b : string) :
  String.length (a ++ b) = String.length a + String.length b.
Proof.
  induction a as [|x a IH]; simpl; [reflexivity | now rewrite IH].
Qed.

Lemma append_grows (a b : string) : b <> EmptyString -> a ++ b <> a.
Proof.
  intros Hb E. apply (f_equal String.length) in E.
  rewrite append_length in E. destruct b as [|y b]; [now apply Hb|].
  simpl in E. lia.
Qed.

Lemma written_changes (text : string) (w : Py.world) :
  text <> EmptyString -> written text w <> w.
Proof.
  intros Ht E. apply (f_equal Py.stdout) in E. simpl in E.
  now apply append_grows in E.
Qed.

Lemma kpi_paragraph_not_empty (color icon sentence comparison : string) :
  kpi_paragraph color icon sentence comparison <> EmptyString.
Proof.
  discriminate.
Qed.

(** Every call of [kpi] returns, and prints for the shapes it does not know
    only. *)
Lemma kpi_runs {num : Type} `{Number num} (thresholds : list num)
    (sentences : list string) (v : num) (w : Py.world) :
  exists html : string,
    kpi thresholds sentences v w
    = (if supported_shape (List.length thresholds) (List.length sentences)
       then w else written kpi_diagnostic w,
       inr html).
Proof.
  destruct thresholds as [|t0 [|t1 [|t2 ts]]];
    destruct sentences as [|s0 [|s1 [|s2 [|s3 ss]]]];
    try (rewrite kpi_other_shapes by (simpl; congruence);
         eexists; reflexivity).
  - rewrite kpi_one_threshold. eexists; reflexivity.
  - rewrite kpi_two_thresholds. eexists; reflexivity.
Qed.

(** X1: [kpi] raises on no input.  It returns the empty string exactly for the
    shapes it does not know, and these are also the only ones for which it
    prints; for the two shapes it knows it leaves the world as it was. *)
Theorem kpi_empty_iff_unsupported :
  forall (num : Type) (N : Number num) (thresholds : list num)
         (sentences : list string) (v : num) (w : Py.world),
  exists html : string,
    kpi thresholds sentences v w
    = (if supported_shape (List.length thresholds) (List.length sentences)
       then w else written kpi_diagnostic w,
       inr html)
    /\ (html = EmptyString
        <-> supported_shape (List.length thresholds) (List.length sentences)
            = false)
    /\ written kpi_diagnostic w <> w.
Proof.
  intros num N thresholds sentences v w.
  assert (Hw : written kpi_diagnostic w <> w)
    by (apply written_changes; discriminate).
  destruct thresholds as [|t0 [|t1 [|t2 ts]]];
    destruct sentences as [|s0 [|s1 [|s2 [|s3 ss]]]];
    try (rewrite kpi_other_shapes by (simpl; congruence);
         exists EmptyString; repeat split; auto).
  - rewrite kpi_one_threshold. eexists. split; [reflexivity|].
    split; [|exact Hw].
    split; [|discriminate].
    destruct (py_lt v t0); intros E; discriminate E.
  - rewrite kpi_two_thresholds. eexists. split; [reflexivity|].
    split; [|exact Hw].
    split; [|discriminate].
    destruct (py_lt v t0); [|destruct (py_gt v t1)]; intros E; discriminate E.
Qed.

Lemma kpi_empty_iff_unsupported_witness :
  exists html : string,
    kpi [1; 2]%Z ["a"] 7%Z blank_world
    = (written kpi_diagnostic blank_world, inr html)
    /\ html = EmptyString.
Proof.
  destruct (kpi_empty_iff_unsupported Z int_number [1; 2]%Z ["a"] 7%Z
              blank_world) as (html & Hrun & Hempty & _).
  exists html. split; [exact Hrun|].
  apply Hempty. reflexivity.
Defined.

(** X2: With integers, the comparison that [kpi] displays is true whenever the
    value differs from every threshold: red shows a true "v < t0", green a
    true "v > t", and orange a true "t0 < v < t1". *)
Theorem kpi_int_message_true :
  (forall (t0 v : Z) (s0 s1 : string) (w : Py.world),
      v <> t0 ->
      (kpi [t0] [s0; s1] v w
       = (w, inr (red_failure s0 (str_int v ++ " < " ++ str_int t0)))
       /\ (v < t0)%Z)
      \/ (kpi [t0] [s0; s1] v w
          = (w, inr (green_success s1 (str_int v ++ " > " ++ str_int t0)))
          /\ (v > t0)%Z))
  /\ (forall (t0 t1 v : Z) (s0 s1 s2 : string) (w : Py.world),
         v <> t0 -> v <> t1 ->
         (kpi [t0; t1] [s0; s1; s2] v w
          = (w, inr (red_failure s0 (str_int v ++ " < " ++ str_int t0)))
          /\ (v < t0)%Z)
         \/ (kpi [t0; t1] [s0; s1; s2] v w
             = (w, inr (green_success s2 (str_int v ++ " > " ++ str_int t1)))
             /\ (v > t1)%Z)
         \/ (kpi [t0; t1] [s0; s1; s2] v w
             = (w, inr (orange_middle s1 (str_int t0 ++ " < " ++ str_int v
                                          ++ " < " ++ str_int t1)))
             /\ (t0 < v < t1)%Z)).
Proof.
  split.
  - intros t0 v s0 s1 w Hne. rewrite kpi_one_threshold. simpl.
    destruct (Z.ltb_spec v t0); [left | right]; split;
      try reflexivity; lia.
  - intros t0 t1 v s0 s1 s2 w Hne0 Hne1. rewrite kpi_two_thresholds. simpl.
    destruct (Z.ltb_spec v t0); [left; split; [reflexivity | lia]|].
    right. rewrite Z.gtb_ltb.
    destruct (Z.ltb_spec t1 v); [left | right]; split;
      try reflexivity; lia.
Qed.

Lemma kpi_int_message_true_witness :
  7%Z <> 5%Z /\ 7%Z <> 10%Z
  /\ kpi [5; 10]%Z ["a"; "b"; "c"] 7%Z blank_world
     = (blank_world, inr (orange_middle "b" "5 < 7 < 10")).
Proof.
  split; [discriminate|]. split; [discriminate|].
  destruct (proj2 kpi_int_message_true 5%Z 10%Z 7%Z "a" "b" "c" blank_world
              ltac:(discriminate) ltac:(discriminate))
    as [[_ Hlt] | [[_ Hgt] | [Hrun _]]].
  - exfalso. revert Hlt. apply Z.le_ngt. discriminate.
  - exfalso. apply Z.gt_lt in Hgt. revert Hgt. apply Z.le_ngt. discriminate.
  - exact Hrun.
Defined.

(** ** Files: what is read and what is left alone *)

(** Reading a file of the [widgets] directory of the module is reading the
    file of that path; the world stays as it was. *)
Lemma read_module_file (name : string) (w : Py.world) :
  (do path <- Py.module_path "widgets" name ;;
   do text <- Py.read_file path ;;
   Py.ret text) w
  = (w, Py.result (Py.read_file (Py.module_dir w ++ "/widgets/" ++ name)) w).
Proof.
  unfold Py.result, Py.bind, Py.module_path, Py.read_file, Py.ret. simpl.
  destruct (Py.files w _) as [[| | |chars]|]; reflexivity.
Qed.

(** The translation of the line ends leaves no carriage return. *)
Lemma universal_newlines_no_cr (s : string) :
  occurrences cr (universal_newlines s) = 0.
Proof.
  assert (Hlen : forall n s, String.length s <= n ->
                             occurrences cr (universal_newlines s) = 0).
  { clear s. induction n as [|n IH]; intros [|c s] Hn;
      try reflexivity; simpl in Hn; [lia|].
    cbn [universal_newlines].
    destruct (Ascii.eqb c "013") eqn:Hc.
    - destruct s as [|d s].
      + reflexivity.
      + destruct (Ascii.eqb d "010").
        * change (0 + occurrences cr (universal_newlines s) = 0).
          simpl in Hn. apply IH. lia.
        * change (0 + occurrences cr (universal_newlines (String d s)) = 0).
          apply IH. lia.
    - change ((if Ascii.eqb "013" c && true then 1 else 0)
              + occurrences cr (universal_newlines s) = 0).
      rewrite Ascii.eqb_sym, Hc. simpl. apply IH. lia. }
  apply (Hlen (String.length s)). lia.
Qed.

(** A text without carriage return is read as it is. *)
Lemma universal_newlines_plain (s : string) :
  occurrences cr s = 0 -> universal_newlines s = s.
Proof.
  induction s as [|c s IH]; intros Hs; [reflexivity|].
  change ((if Ascii.eqb "013" c && true then 1 else 0) + occurrences cr s = 0)
    in Hs.
  cbn [universal_newlines]. rewrite Ascii.eqb_sym.
  destruct (Ascii.eqb "013" c); simpl in Hs; [discriminate Hs|].
  now rewrite IH.
Qed.



(** X5: A call of [kpi] before a stylesheet loader changes nothing of what
    the loader returns, although [kpi] may print; and either loader before
    [kpi] changes nothing of what [kpi] returns, unless the loader raises,
    which ends the sequence with its exception. *)
Theorem kpi_and_stylesheet_commute :
  forall (num : Type) (N : Number num) (thresholds : list num)
         (sentences : list string) (v : num) (w : Py.world),
    Py.result (run kpi thresholds sentences v ;; price_card_stylesheet) w
    = Py.result price_card_stylesheet w
    /\ Py.result (run kpi thresholds sentences v ;; html_report_stylesheet) w
       = Py.result html_report_stylesheet w
    /\ Py.result (run price_card_stylesheet ;; kpi thresholds sentences v) w
       = match Py.result price_card_stylesheet w with
         | inl e => inl e
         | inr _ => Py.result (kpi thresholds sentences v) w
         end
    /\ Py.result (run html_report_stylesheet ;; kpi thresholds sentences v) w
       = match Py.result html_report_stylesheet w with
         | inl e => inl e
         | inr _ => Py.result (kpi thresholds sentences v) w
         end.
Proof.
  intros num N thresholds sentences v w.
  destruct (kpi_runs thresholds sentences v w) as (html & Hrun).
  unfold Py.result, Py.bind. rewrite Hrun.
  unfold price_card_stylesheet, html_report_stylesheet.
  rewrite !read_module_file.
  assert (Hsame : forall name,
             Py.result
               (Py.read_file
                  (Py.module_dir
                     (if supported_shape (List.length thresholds)
                           (List.length sentences)
                      then w else written kpi_diagnostic w)
                   ++ "/widgets/" ++ name))
               (if supported_shape (List.length thresholds)
                     (List.length sentences)
                then w else written kpi_diagnostic w)
             = Py.result
                 (Py.read_file (Py.module_dir w ++ "/widgets/" ++ name)) w).
  { intros name. destruct (supported_shape _ _); [reflexivity|].
    unfold Py.result, Py.read_file, written. simpl.
    destruct (Py.files w _) as [[| | |chars]|]; reflexivity. }
  cbn [snd]. rewrite !Hsame.
  repeat split;
    match goal with
    | |- context [Py.result (Py.read_file ?path) w] =>
        destruct (Py.result (Py.read_file path) w)
    end; try reflexivity; now rewrite Hrun.
Qed.

(** ** The template functions and their files *)

Section Templates.

Import widget_templates.

Context {jinja_error : Type}.
Variable render :
  string -> list (string * jinja_value) -> jinja_error + string.

(** A template function reads its file and returns what the engine makes of
    the text, in a world it leaves as it was. *)
Lemma render_module_file (name : string)
    (bindings : list (string * jinja_value)) (w : Py.world) :
  (do path <- Py.module_path "widgets" name ;;
   do template <- Py.read_file path ;;
   Py.ret (render template bindings)) w
  = (w, match Py.result
                (Py.read_file (Py.module_dir w ++ "/widgets/" ++ name)) w
        with
        | inr template => inr (render template bindings)
        | inl e => inl e
        end).
Proof.
  unfold Py.result, Py.bind, Py.module_path, Py.read_file, Py.ret. simpl.
  destruct (Py.files w _) as [[| | |chars]|]; reflexivity.
Qed.

End Templates.




(** ** [tablinks]: rows of five *)

Lemma enumerate_from_app {A} (l1 l2 : list A) (k : nat) :
  enumerate_from k (l1 ++ l2)%list
  = (enumerate_from k l1 ++ enumerate_from (k + List.length l1) l2)%list.
Proof.
  revert k; induction l1 as [|a l1 IH]; intros k; simpl.
  - now rewrite Nat.add_0_r.
  - now rewrite IH, Nat.add_succ_r.
Qed.

(** The items of a run of titles depend on the position of the first one
    through its remainder by five only. *)
Lemma tab_items_shift (l : list string) (k k' : nat) :
  k mod 5 = k' mod 5 ->
  map tab_item (enumerate_from k l) = map tab_item (enumerate_from k' l).
Proof.
  revert k k'; induction l as [|title l IH]; intros k k' Hk; [reflexivity|].
  cbn [enumerate_from map]. f_equal.
  - unfold tab_item. cbn [fst snd]. now rewrite Hk.
  - apply IH.
    pose proof (Nat.div_mod_eq k 5). pose proof (Nat.div_mod_eq k' 5).
    pose proof (Nat.div_mod_eq (S k) 5). pose proof (Nat.div_mod_eq (S k') 5).
    pose proof (Nat.mod_upper_bound k 5). pose proof (Nat.mod_upper_bound k' 5).
    pose proof (Nat.mod_upper_bound (S k) 5).
    pose proof (Nat.mod_upper_bound (S k') 5).
    lia.
Qed.

(** X8: After full rows of five, the tab bar goes on as if it started anew: the
    bar of [tabs1 ++ tabs2] holds the content of the bar of [tabs1] followed
    by the content of the bar of [tabs2] when the length of [tabs1] is a
    multiple of five. *)
Theorem tablinks_after_full_rows :
  forall (tabs1 tabs2 : list string) (w : Py.world),
    List.length tabs1 mod 5 = 0 ->
    exists inner1 inner2 : string,
      tablinks tabs1 w = (w, inr (tab_bar inner1))
      /\ tablinks tabs2 w = (w, inr (tab_bar inner2))
      /\ tablinks (tabs1 ++ tabs2)%list w
         = (w, inr (tab_bar (inner1 ++ inner2))).
Proof.
  intros tabs1 tabs2 w Hfull.
  exists (join (map tab_item (enumerate tabs1))),
         (join (map tab_item (enumerate tabs2))).
  rewrite !tablinks_builds. repeat split.
  unfold enumerate.
  rewrite enumerate_from_app, map_app, join_app. cbn [Nat.add].
  rewrite (tab_items_shift tabs2 (List.length tabs1) 0); [reflexivity|].
  rewrite Hfull. reflexivity.
Qed.

Lemma tablinks_after_full_rows_witness :
  exists inner1 inner2 : string,
    tablinks ["A"; "B"; "C"; "D"; "E"] blank_world
    = (blank_world, inr (tab_bar inner1))
    /\ tablinks ["F"; "G"] blank_world = (blank_world, inr (tab_bar inner2))
    /\ tablinks (["A"; "B"; "C"; "D"; "E"] ++ ["F"; "G"])%list blank_world
       = (blank_world, inr (tab_bar (inner1 ++ inner2))).
Proof.
  apply (tablinks_after_full_rows ["A"; "B"; "C"; "D"; "E"] ["F"; "G"]
           blank_world).
  reflexivity.
Defined.

(** ** The names shared by the script and the fragments *)

Lemma occurrences_at_head (pat s : string) :
  starts_with pat s = true -> 1 <= occurrences pat s.
Proof.
  intros Hs. destruct s; simpl in *; rewrite Hs; lia.
Qed.

Lemma starts_with_itself (pat rest : string) :
  starts_with pat (pat ++ rest) = true.
Proof.
  induction pat as [|a pat IH]; [reflexivity|].
  simpl. now rewrite Ascii.eqb_refl, IH.
Qed.

Lemma occurrences_behind (pat a s : string) :
  occurrences pat s <= occurrences pat (a ++ s).
Proof.
  induction a as [|x a IH]; [reflexivity|].
  change (occurrences pat (String x a ++ s))
    with ((if starts_with pat (String x (a ++ s)) then 1 else 0)
          + occurrences pat (a ++ s)).
  lia.
Qed.

(** A text that is put into a larger one is contained in it. *)
Lemma contains_part (pat a b : string) : contains pat (a ++ pat ++ b) = true.
Proof.
  unfold contains. apply Nat.ltb_lt.
  pose proof (occurrences_behind pat a (pat ++ b)).
  pose proof (occurrences_at_head pat (pat ++ b) (starts_with_itself pat b)).
  lia.
Qed.

Lemma tab_bar_holds_button (tabs1 tabs2 : list string) (title : string) :
  exists a b : string,
    tab_bar (join (map tab_item (enumerate (tabs1 ++ title :: tabs2)%list)))
    = a ++ tab_button title ++ b.
Proof.
  unfold enumerate. rewrite enumerate_from_app, map_app, join_app.
  cbn [enumerate_from map join]. unfold tab_item at 2. cbn [fst snd].
  exists ("<div class=" ++ dq ++ "tab" ++ dq ++ ">"
          ++ join (map tab_item (enumerate_from 0 tabs1))),
         ((if ((0 + List.length tabs1) mod 5 =? 4)%nat
           then line_break else EmptyString)
          ++ join (map tab_item
                     (enumerate_from (S (0 + List.length tabs1)) tabs2))
          ++ "</div>").
  unfold tab_bar. repeat rewrite append_assoc. reflexivity.
Qed.



(** ** Headings and paragraphs can be read back *)

Lemma append_cancel_l (a b c : string) : a ++ b = a ++ c -> b = c.
Proof.
  induction a as [|x a IH]; simpl; intros E; [exact E|].
  injection E as E. now apply IH.
Qed.

Lemma append_cancel_r (a b x : string) : a ++ x = b ++ x -> a = b.
Proof.
  revert b; induction a as [|c a IH]; intros [|d b] E; simpl in E.
  - reflexivity.
  - exfalso. apply (f_equal String.length) in E. simpl in E.
    rewrite append_length in E. lia.
  - exfalso. apply (f_equal String.length) in E. simpl in E.
    rewrite append_length in E. lia.
  - injection E as -> E. f_equal. now apply IH.
Qed.

(** [int(str(n)) = n]. *)
Lemma parse_str_int (n : Z) : parse_int (str_int n) = Some n.
Proof.
  unfold parse_int, str_int. rewrite NilZero.isi.
  - simpl. now rewrite DecimalZ.of_to.
  - destruct n; simpl; try discriminate.
    intros [= E]. now apply DecimalPos.Unsigned.to_uint_nonnil in E.
  - destruct n; simpl; try discriminate.
    intros [= E]. now apply DecimalPos.Unsigned.to_uint_nonnil in E.
Qed.

(** The digits of a number end where the first [>] after them stands. *)
Lemma before_digits (d : Decimal.uint) (rest : string) :
  before ">" (NilEmpty.string_of_uint d ++ String ">" rest)
  = NilEmpty.string_of_uint d.
Proof.
  induction d; simpl; try rewrite IHd; reflexivity.
Qed.

Lemma before_str_int (n : Z) (rest : string) :
  before ">" (str_int n ++ String ">" rest) = str_int n.
Proof.
  unfold str_int.
  destruct (Z.to_int n) as [d|d]; simpl;
    destruct d; simpl; try rewrite before_digits; reflexivity.
Qed.

Lemma heading_level_of_h (level : Z) (text : string) :
  heading_level ("<h" ++ str_int level ++ ">" ++ text ++ "</h"
                 ++ str_int level ++ ">")
  = Some level.
Proof.
  unfold heading_level. cbn [append skip].
  change (">" ++ text ++ "</h" ++ str_int level ++ ">")
    with (String ">" (text ++ "</h" ++ str_int level ++ ">")).
  now rewrite before_str_int, parse_str_int.
Qed.

(** X12: The level of a heading can be read back from its opening tag, and no two
    headings of different level or text, and no two paragraphs of different
    text, are the same HTML. *)
Theorem headings_and_paragraphs_read_back :
  (forall (level : Z) (text : string) (w : Py.world),
      exists html : string,
        h level text w = (w, inr html) /\ heading_level html = Some level)
  /\ (forall (level level' : Z) (text text' : string) (w w' : Py.world),
         Py.result (h level text) w = Py.result (h level' text') w' ->
         level = level' /\ text = text')
  /\ (forall (text text' : string) (w w' : Py.world),
         Py.result (p text) w = Py.result (p text') w' -> text = text').
Proof.
  split; [|split].
  - intros level text w. eexists. split; [reflexivity|].
    apply heading_level_of_h.
  - intros level level' text text' w w' E.
    unfold Py.result, h, Py.ret in E. cbn [snd] in E. injection E as E.
    assert (Hl : level = level').
    { assert (Hs : Some level = Some level').
      { rewrite <- (heading_level_of_h level text).
        rewrite <- (heading_level_of_h level' text').
        exact (f_equal (fun s => heading_level ("<h" ++ s)) E). }
      now injection Hs. }
    subst level'. split; [reflexivity|].
    apply append_cancel_l in E. injection E as E.
    now apply append_cancel_r in E.
  - intros text text' w w' E.
    unfold Py.result, p, Py.ret in E. cbn [snd] in E. injection E as E.
    now apply append_cancel_r in E.
Qed.

Lemma headings_and_paragraphs_read_back_witness :
  Py.result (h 3 "x") blank_world
  = Py.result (h 3 "x") (written "printed" blank_world)
  /\ (3%Z = 3%Z /\ "x" = "x").
Proof.
  split; [reflexivity|].
  apply (proj1 (proj2 headings_and_paragraphs_read_back) 3%Z 3%Z "x" "x"
           blank_world (written "printed" blank_world)).
  reflexivity.
Defined.

(** ** Titles: read back, unless they hold a quote *)

Lemma before_first (c : ascii) (t rest : string) :
  occurrences (String c EmptyString) t = 0 ->
  before c (t ++ String c rest) = t.
Proof.
  induction t as [|a t IH]; intros Ht; simpl.
  - now rewrite Ascii.eqb_refl.
  - simpl in Ht. rewrite (Ascii.eqb_sym a c).
    destruct (Ascii.eqb c a); simpl in Ht; [discriminate Ht|].
    rewrite IH; [reflexivity|].
    destruct t; exact Ht.
Qed.

(** X13: The id of a tab is its title when the title holds no double quote.  A
    title is not escaped: a title that holds what [add_tab] puts between
    title and HTML gives the same tab as the shorter title with the rest
    moved into the HTML. *)
Theorem add_tab_id_read_back :
  (forall (title htmlcode : string) (w : Py.world),
      lacks dq title = true ->
      exists html : string,
        add_tab title htmlcode w = (w, inr html) /\ tab_id html = title)
  /\ (forall (title more htmlcode : string) (w : Py.world),
         add_tab (title ++ tab_seam ++ more) htmlcode w
         = add_tab title (more ++ tab_seam ++ htmlcode) w)
  /\ (forall (title more htmlcode : string) (w : Py.world),
         lacks dq title = true ->
         exists html : string,
           add_tab (title ++ tab_seam ++ more) htmlcode w = (w, inr html)
           /\ tab_id html = title).
Proof.
  assert (Hread : forall title htmlcode w,
             lacks dq title = true ->
             exists html : string,
               add_tab title htmlcode w = (w, inr html)
               /\ tab_id html = title).
  { intros title htmlcode w Hq. apply lacks_spec in Hq.
    eexists. split; [reflexivity|].
    unfold tab_id. cbn [append skip dq].
    now apply before_first. }
  assert (Hmove : forall title more htmlcode w,
             add_tab (title ++ tab_seam ++ more) htmlcode w
             = add_tab title (more ++ tab_seam ++ htmlcode) w).
  { intros. unfold add_tab, Py.ret, tab_seam, comment_placeholder.
    do 2 f_equal. repeat rewrite append_assoc. reflexivity. }
  split; [exact Hread|]. split; [exact Hmove|].
  intros title more htmlcode w Hq. rewrite Hmove. now apply Hread.
Qed.

Lemma add_tab_id_read_back_witness :
  lacks dq "SUMMARY" = true
  /\ exists html : string,
      add_tab "SUMMARY" "<p>x</p>" blank_world = (blank_world, inr html)
      /\ tab_id html = "SUMMARY".
Proof.
  split; [reflexivity|].
  apply (proj1 add_tab_id_read_back "SUMMARY" "<p>x</p>" blank_world).
  reflexivity.
Defined.

(** ** The targets of the buttons *)

Lemma starts_with_shorter (a b s : string) :
  starts_with (a ++ b) s = true -> starts_with a s = true.
Proof.
  revert s; induction a as [|x a IH]; intros s Hs; [reflexivity|].
  destruct s as [|y s]; simpl in Hs |- *; [discriminate Hs|].
  apply andb_true_iff in Hs as [Hx Hs]. rewrite Hx. simpl. now apply IH.
Qed.

(** A title without the start of a call adds no target in front of a text
    whose first character is none of that start. *)
Lemma targets_skip (t rest : string) (c : ascii) :
  ~ In c (list_ascii_of_string "enu(event, ") ->
  occurrences menu_call t = 0 ->
  targets (t ++ String c rest) = targets (String c rest).
Proof.
  intros Hc. induction t as [|a t IH]; intros Ht; [reflexivity|].
  change (occurrences menu_call (String a t))
    with ((if starts_with menu_call (String a t) then 1 else 0)
          + occurrences menu_call t) in Ht.
  destruct (starts_with menu_call (String a t)) eqn:Hhere;
    [discriminate Ht|].
  simpl in Ht.
  change (targets (String a t ++ String c rest))
    with (if starts_with (menu_call ++ "'") (String a (t ++ String c rest))
          then before "'" (skip 13 (String a (t ++ String c rest)))
               :: targets (t ++ String c rest)
          else targets (t ++ String c rest)).
  destruct (starts_with (menu_call ++ "'") (String a (t ++ String c rest)))
    eqn:Hthere; [|now apply IH].
  exfalso. apply starts_with_shorter in Hthere.
  unfold menu_call in Hhere, Hthere. simpl in Hhere, Hthere.
  apply andb_true_iff in Hthere as [Hm Hq].
  rewrite Hm in Hhere. simpl in Hhere.
  change (starts_with "enu(event, " (t ++ String c rest) = true) in Hq.
  apply starts_with_cut in Hq; [|exact Hc].
  change (starts_with "enu(event, " t = false) in Hhere.
  rewrite Hq in Hhere. discriminate Hhere.
Qed.

(** One item has one target, the title of its button. *)
Lemma targets_of_item (idx : nat) (title rest : string) :
  occurrences "'" title = 0 ->
  occurrences menu_call title = 0 ->
  targets (tab_item (idx, title) ++ rest) = title :: targets rest.
Proof.
  intros Hq Hm. unfold tab_item, tab_button, line_break. simpl fst; simpl snd.
  destruct (idx mod 5 =? 4)%nat;
    repeat (rewrite !append_assoc; simpl);
    (rewrite before_first by exact Hq);
    (rewrite targets_skip; [simpl | not_in_marker | exact Hm]);
    (rewrite targets_skip; [simpl | not_in_marker | exact Hm]);
    reflexivity.
Qed.

Lemma targets_of_items (tabs : list string) (k : nat) (rest : string) :
  forallb (lacks "'") tabs = true ->
  forallb (lacks menu_call) tabs = true ->
  targets (join (map tab_item (enumerate_from k tabs)) ++ rest)
  = (tabs ++ targets rest)%list.
Proof.
  revert k; induction tabs as [|title tabs IH]; intros k Hq Hm;
    [reflexivity|].
  cbn [forallb] in Hq, Hm.
  apply andb_true_iff in Hq as [Hq Hqs]. apply andb_true_iff in Hm as [Hm Hms].
  apply lacks_spec in Hq, Hm.
  cbn [enumerate_from map join].
  rewrite append_assoc, targets_of_item, IH by auto. reflexivity.
Qed.



(** ** The end of the tab bar *)

(** X9: A bar of five, ten, ... buttons ends with a line break that no button
    follows; any other bar that is not empty ends with its last button. *)
Theorem tablinks_trailing_break :
  forall (tabs : list string) (w : Py.world),
    tabs <> [] ->
    exists inner : string,
      tablinks tabs w
      = (w, inr (tab_bar (inner ++ "</button>"
                          ++ (if (List.length tabs mod 5 =? 0)%nat
                              then line_break else EmptyString)))).
Proof.
  intros tabs w Hne.
  destruct (exists_last Hne) as (front & title & ->).
  rewrite tablinks_builds. unfold enumerate.
  rewrite enumerate_from_app, map_app, join_app.
  cbn [enumerate_from map join Nat.add].
  rewrite length_app. cbn [List.length]. rewrite fifth_button.
  exists (join (map tab_item (enumerate_from 0 front))
          ++ "<button class=" ++ dq ++ "tablinks" ++ dq ++ " onclick=" ++ dq
          ++ "menu(event, '" ++ title ++ "')" ++ dq ++ ">" ++ title).
  do 3 f_equal. unfold tab_item, tab_button. cbn [fst snd].
  rewrite append_empty_r. repeat rewrite append_assoc. reflexivity.
Qed.

Lemma tablinks_trailing_break_witness :
  ["A"; "B"; "C"; "D"; "E"] <> []
  /\ exists inner : string,
      tablinks ["A"; "B"; "C"; "D"; "E"] blank_world
      = (blank_world, inr (tab_bar (inner ++ "</button>" ++ line_break))).
Proof.
  split; [discriminate|].
  apply (tablinks_trailing_break ["A"; "B"; "C"; "D"; "E"] blank_world).
  discriminate.
Defined.

(** ** The calls that the buttons make *)

Lemma skip_length_app (t u : string) : skip (String.length t) (t ++ u) = u.
Proof.
  induction t as [|a t IH]; [reflexivity | exact IH].
Qed.

Lemma skip_length_plus (t u : string) (n : nat) :
  skip (String.length t + n) (t ++ u) = skip n u.
Proof.
  induction t as [|a t IH]; [reflexivity | exact IH].
Qed.

Lemma clicks_wait (t rest : string) (c : ascii) :
  clicks_from (S (String.length t)) (t ++ String c rest) = clicks_from 0 rest.
Proof.
  induction t as [|a t IH]; [reflexivity | exact IH].
Qed.

Lemma starts_with_split (pat s : string) :
  starts_with pat s = true -> exists rest : string, s = pat ++ rest.
Proof.
  revert s; induction pat as [|x pat IH]; intros s Hs.
  - now exists s.
  - destruct s as [|y s]; simpl in Hs; [discriminate Hs|].
    apply andb_true_iff in Hs as [Hx Hs]. apply Ascii.eqb_eq in Hx. subst y.
    destruct (IH s Hs) as (rest & ->). now exists rest.
Qed.

(** Where the start of a wiring attribute stands, there is a double quote. *)
Lemma click_call_has_quote (s : string) :
  starts_with click_call s = true -> 1 <= occurrences dq s.
Proof.
  intros Hs. apply starts_with_split in Hs as (rest & ->).
  pose proof (contains_part dq "onclick=" ("menu(event, '" ++ rest)) as Hc.
  unfold contains in Hc. apply Nat.ltb_lt in Hc.
  unfold click_call. repeat rewrite append_assoc. exact Hc.
Qed.

(** A title without double quote starts no wiring attribute in front of a
    text whose first character is none of that start. *)
Lemma clicks_skip_title (t rest : string) (c : ascii) :
  ~ In c (list_ascii_of_string ("nclick=" ++ dq ++ "menu(event, '")) ->
  occurrences dq t = 0 ->
  clicks_from 0 (t ++ String c rest) = clicks_from 0 (String c rest).
Proof.
  intros Hc. induction t as [|a t IH]; intros Ht; [reflexivity|].
  assert (Hhere : starts_with click_call (String a t) = false).
  { destruct (starts_with click_call (String a t)) eqn:Hs; [|reflexivity].
    apply click_call_has_quote in Hs. lia. }
  assert (Htail : occurrences dq t = 0).
  { change (occurrences dq (String a t))
      with ((if starts_with dq (String a t) then 1 else 0)
            + occurrences dq t) in Ht. lia. }
  change (clicks_from 0 (String a t ++ String c rest))
    with (if starts_with click_call (String a (t ++ String c rest))
          then (let target :=
                  before "'" (skip 22 (String a (t ++ String c rest))) in
                (if starts_with ("')" ++ dq)
                      (skip (22 + String.length target)
                         (String a (t ++ String c rest)))
                    && lacks dq target
                 then Some target else None)
                :: clicks_from (22 + String.length target)
                     (t ++ String c rest))
          else clicks_from 0 (t ++ String c rest)).
  destruct (starts_with click_call (String a (t ++ String c rest)))
    eqn:Hthere; [|now apply IH].
  exfalso. unfold click_call in Hhere, Hthere. simpl in Hhere, Hthere.
  apply andb_true_iff in Hthere as [Ho Hq].
  rewrite Ho in Hhere. simpl in Hhere.
  apply (starts_with_cut ("nclick=" ++ dq ++ "menu(event, '")) in Hq;
    [|exact Hc].
  simpl in Hq. rewrite Hq in Hhere. discriminate Hhere.
Qed.

(** One item makes one call, with the title of its button as target. *)
Lemma clicks_of_item (idx : nat) (title rest : string) :
  occurrences "'" title = 0 ->
  occurrences dq title = 0 ->
  clicks_from 0 (tab_item (idx, title) ++ rest)
  = Some title :: clicks_from 0 rest.
Proof.
  intros Hq Hd.
  assert (Hl : lacks dq title = true) by (unfold lacks; now rewrite Hd).
  unfold tab_item, tab_button, line_break. simpl fst; simpl snd.
  destruct (idx mod 5 =? 4)%nat;
    repeat (rewrite !append_assoc; simpl);
    (rewrite before_first by exact Hq);
    rewrite skip_length_app, Hl; simpl;
    rewrite clicks_wait; simpl;
    (rewrite clicks_skip_title; [simpl | not_in_marker | exact Hd]);
    reflexivity.
Qed.

Lemma clicks_of_items (tabs : list string) (k : nat) (rest : string) :
  forallb (lacks "'") tabs = true ->
  forallb (lacks dq) tabs = true ->
  clicks_from 0 (join (map tab_item (enumerate_from k tabs)) ++ rest)
  = (map Some tabs ++ clicks_from 0 rest)%list.
Proof.
  revert k; induction tabs as [|title tabs IH]; intros k Hq Hd;
    [reflexivity|].
  cbn [forallb] in Hq, Hd.
  apply andb_true_iff in Hq as [Hq Hqs]. apply andb_true_iff in Hd as [Hd Hds].
  apply lacks_spec in Hq, Hd.
  cbn [enumerate_from map join].
  rewrite append_assoc, clicks_of_item, IH by auto. reflexivity.
Qed.




(** ** The tab and its id *)

Lemma before_app (c : ascii) (t u : string) :
  occurrences (String c EmptyString) t = 0 ->
  before c (t ++ u) = t ++ before c u.
Proof.
  induction t as [|a t IH]; intros Ht; [reflexivity|].
  simpl in Ht |- *. rewrite (Ascii.eqb_sym a c).
  destruct (Ascii.eqb c a); simpl in Ht; [discriminate Ht|].
  rewrite IH; [reflexivity|]. destruct t; exact Ht.
Qed.




(** ** The markers of the tab bar, whatever the titles *)

Lemma starts_with_longer (pat a b : string) :
  starts_with pat a = true -> starts_with pat (a ++ b) = true.
Proof.
  revert a; induction pat as [|x pat IH]; intros a Ha; [reflexivity|].
  destruct a as [|y a]; simpl in Ha |- *; [discriminate Ha|].
  apply andb_true_iff in Ha as [Hx Ha]. rewrite Hx. simpl. now apply IH.
Qed.

(** What occurs in two texts occurs in the two put together. *)
Lemma occurrences_app_ge (x : ascii) (q a b : string) :
  occurrences (String x q) a + occurrences (String x q) b
  <= occurrences (String x q) (a ++ b).
Proof.
  induction a as [|c a IH]; [simpl; lia|].
  change (occurrences (String x q) (String c a))
    with ((if starts_with (String x q) (String c a) then 1 else 0)
          + occurrences (String x q) a).
  change (occurrences (String x q) (String c a ++ b))
    with ((if starts_with (String x q) (String c (a ++ b)) then 1 else 0)
          + occurrences (String x q) (a ++ b)).
  destruct (starts_with (String x q) (String c a)) eqn:Hs; [|lia].
  pose proof (starts_with_longer _ (String c a) b Hs) as Hl.
  change (String c a ++ b) with (String c (a ++ b)) in Hl.
  rewrite Hl. lia.
Qed.

(** The line breaks that are emitted are in the text of the items. *)
Lemma line_breaks_at_least (items : list (nat * string)) :
  breaks_emitted items <= occurrences line_break (join (map tab_item items)).
Proof.
  induction items as [|it items IH]; [exact (Nat.le_refl 0)|].
  rewrite breaks_emitted_cons. cbn [map join].
  pose proof (occurrences_app_ge "<" "/br>" (tab_item it)
                (join (map tab_item items))) as Happ.
  fold line_break in Happ.
  assert (Hit : (if (fst it mod 5 =? 4)%nat then 1 else 0)
                <= occurrences line_break (tab_item it)).
  { unfold tab_item. destruct (fst it mod 5 =? 4)%nat; [|lia].
    pose proof (occurrences_behind line_break (tab_button (snd it))
                  line_break) as Hb.
    change (occurrences line_break line_break) with 1 in Hb. exact Hb. }
  lia.
Qed.

(** Every item brings the start of a button. *)
Lemma buttons_at_least (items : list (nat * string)) :
  List.length items <= occurrences button_tag (join (map tab_item items)).
Proof.
  induction items as [|it items IH]; [exact (Nat.le_refl 0)|].
  cbn [map join List.length].
  pose proof (occurrences_app_ge "<" "button" (tab_item it)
                (join (map tab_item items))) as Happ.
  fold button_tag in Happ.
  assert (Hit : 1 <= occurrences button_tag (tab_item it)).
  { apply occurrences_at_head. reflexivity. }
  lia.
Qed.

Lemma tab_bar_at_least (x : ascii) (q inner : string) :
  occurrences (String x q) inner <= occurrences (String x q) (tab_bar inner).
Proof.
  unfold tab_bar.
  pose proof (occurrences_app_ge x q inner "</div>").
  pose proof (occurrences_behind (String x q)
                ("<div class=" ++ dq ++ "tab" ++ dq ++ ">")
                (inner ++ "</div>")) as Hb.
  repeat rewrite append_assoc in Hb.
  repeat rewrite append_assoc. lia.
Qed.


